(** * Weather relay (backend/main.py): a shallow embedding and its properties

    The backend is a FastAPI application with three GET routes, each of
    which builds one outbound request, waits for the upstream answer and
    hands the decoded document back.  The handlers are embedded as
    programs of a small request monad; the HTTP client, the upstream
    and the web framework appear only through their interfaces. *)

From Stdlib Require Import Ascii Floats.
From stdpp Require Import gmap strings list fin_maps pretty.

Local Open Scope string_scope.
Local Open Scope Z_scope.

(** ** Data model *)

(** Decoded JSON documents, as Python objects: [dict] keeps insertion
    order, so an object is an association list. *)
#[warning="-register-all"]
Inductive json : Type :=
  | JNull
  | JBool (b : bool)
  | JInt (n : Z)
  | JFloat (f : float)
  | JStr (s : string)
  | JArr (items : list json)
  | JObj (fields : list (string * json)).

(** Exceptions the handlers can meet.  [ConnectError] and [TimeoutError]
    come from the transport of [requests] / [httpx]; [JSONDecodeError]
    from [Response.json()]. *)
Inductive exn : Type :=
  | ConnectError
  | TimeoutError
  | JSONDecodeError.

(** Values of the [params] dictionary given to [requests.get]. *)
Inductive pval : Type :=
  | PFloat (f : float)
  | PInt (n : Z)
  | PStr (s : string).

(** An outbound GET: [requests.get(url, params=...)] or
    [client.get(url, headers=...)]. *)
Record request : Type := Request {
  url : string;
  params : gmap string pval;
  headers : gmap string string
}.

(** The response object of [requests] and [httpx]: the attributes
    [status_code] and [text], and the outcome of the method [json()],
    which either raises or yields the decoded body. *)
Record response : Type := Response {
  status_code : Z;
  text : string;
  json_body : exn + json
}.

(** What the world does with an outbound request. *)
Inductive answer : Type :=
  | Failed (e : exn)
  | Answered (r : response).

(** Outcome of calling a handler. *)
Inductive result (A : Type) : Type :=
  | Returned (a : A)
  | Raised (e : exn).
Arguments Returned {A} a.
Arguments Raised {A} e.

(** ** The request monad *)

(** A handler is a finite tree: it returns, raises, or performs a GET and
    continues with the response. *)
Inductive action (A : Type) : Type :=
  | Return (a : A)
  | Raise (e : exn)
  | Get (req : request) (k : response → action A).
Arguments Return {A} a.
Arguments Raise {A} e.
Arguments Get {A} req k.

Fixpoint action_bind {A B : Type} (f : A → action B) (m : action A) : action B :=
  match m with
  | Return a => f a
  | Raise e => Raise e
  | Get req k => Get req (λ r, action_bind f (k r))
  end.

#[global] Instance action_ret : MRet action := λ A a, Return a.
#[global] Instance action_mbind : MBind action := λ A B f m, action_bind f m.

(** Running a handler against an upstream [net]: a transport failure is
    raised at the point of the call, as [requests.get] and
    [await client.get] do. *)
Fixpoint run {A : Type} (net : request → answer) (m : action A) : result A :=
  match m with
  | Return a => Returned a
  | Raise e => Raised e
  | Get req k =>
      match net req with
      | Failed e => Raised e
      | Answered r => run net (k r)
      end
  end.

(** The outbound requests a handler issues, in order, when run against [net]. *)
Fixpoint sent {A : Type} (net : request → answer) (m : action A) : list request :=
  match m with
  | Return _ | Raise _ => []
  | Get req k =>
      req :: match net req with
             | Failed _ => []
             | Answered r => sent net (k r)
             end
  end.

(** ** Library calls used by the handlers *)

(** A Python dict literal: the pairs are stored left to right, a later
    key overwriting an earlier one. *)
Definition dict {V : Type} (items : list (string * V)) : gmap string V :=
  foldl (λ m kv, <[kv.1 := kv.2]> m) ∅ items.

(** [sep.join(parts)]. *)
Definition join (sep : string) (parts : list string) : string :=
  String.concat sep parts.

(** [requests.get(url, params=params)]. *)
Definition requests_get (u : string) (ps : gmap string pval) : action response :=
  Get (Request u ps ∅) Return.

(** [async with httpx.AsyncClient() as client: await client.get(url, headers=hs)]. *)
Definition client_get (u : string) (hs : gmap string string) : action response :=
  Get (Request u ∅ hs) Return.

(** [r.json()]. *)
Definition response_json (r : response) : action json :=
  match json_body r with
  | inl e => Raise e
  | inr doc => Return doc
  end.

(** ** The handlers *)

(** [get_weather(lat: float, lon: float, tz: str = "auto")]; an omitted
    [tz] is [None] and takes the default of the signature. *)
Definition get_weather (lat lon : float) (tz_arg : option string) : action json :=
  let tz := default "auto" tz_arg in
  let url := "https://api.open-meteo.com/v1/forecast" in
  let params := dict [
    ("latitude", PFloat lat);
    ("longitude", PFloat lon);
    ("current", PStr (join "," [
        "temperature_2m";
        "apparent_temperature";
        "relative_humidity_2m";
        "is_day";
        "precipitation";
        "wind_speed_10m";
        "wind_direction_10m";
        "weather_code";
        "surface_pressure";
        "cloud_cover"
    ]));
    ("hourly", PStr (join "," [
        "temperature_2m";
        "relative_humidity_2m";
        "precipitation";
        "cloud_cover";
        "wind_speed_10m"
    ]));
    ("daily", PStr (join "," [
        "temperature_2m_max";
        "temperature_2m_min";
        "uv_index_max";
        "sunrise";
        "sunset";
        "precipitation_sum"
    ]));
    ("forecast_days", PInt 7);
    ("timezone", PStr tz)
  ] in
  r ← requests_get url params;
  if negb (status_code r =? 200) then
    Return (JObj [("error", JBool true); ("reason", JStr (text r))])
  else
    response_json r.

(** [search_places(q: str)]. *)
Definition search_places (q : string) : action json :=
  let url := "https://nominatim.openstreetmap.org/search?format=json&q=" +:+ q +:+ "&limit=5" in
  r ← client_get url (dict [("User-Agent", "WeatherApp/1.0")]);
  response_json r.

Section ReverseGeocode.

(** The text an f-string puts in place of [{x}] for a float [x]
    (Python's [format(x, "")]); it belongs to the interpreter, so the
    handler is embedded over any such function. *)
Variable format_float : float → string.

(** [reverse_geocode(lat: float, lon: float)]. *)
Definition reverse_geocode (lat lon : float) : action json :=
  let url := "https://nominatim.openstreetmap.org/reverse?format=json&lat="
               +:+ format_float lat +:+ "&lon=" +:+ format_float lon in
  r ← client_get url (dict [("User-Agent", "WeatherApp/1.0")]);
  response_json r.

End ReverseGeocode.

(** ** The application object *)











(** ** Serving a request: the middleware in front of the router *)




















(** What the relay answers to its own caller. *)
Record http_response : Type := HttpResponse {
  http_status : Z;
  http_body : json + string
}.

(** The framework's treatment of a handler outcome: a returned value is
    sent as a JSON body with status 200, an exception that leaves the
    handler becomes the generic 500 answer. *)
Definition serve (res : result json) : http_response :=
  match res with
  | Returned doc => HttpResponse 200 (inl doc)
  | Raised _ => HttpResponse 500 (inr "Internal Server Error")
  end.

(** ** What reaches the upstream: the query component of a URL *)

(** [occurs c s]: the character [c] appears in [s]. *)
Fixpoint occurs (c : ascii) (s : string) : bool :=
  match s with
  | EmptyString => false
  | String a s' => Ascii.eqb a c || occurs c s'
  end.

(** The part of [s] in front of the first [c] (all of [s] without one). *)
Fixpoint before (c : ascii) (s : string) : string :=
  match s with
  | EmptyString => EmptyString
  | String a s' => if Ascii.eqb a c then EmptyString else String a (before c s')
  end.

(** The part of [s] behind the first [c] (empty without one). *)
Fixpoint after (c : ascii) (s : string) : string :=
  match s with
  | EmptyString => EmptyString
  | String a s' => if Ascii.eqb a c then s' else after c s'
  end.

(** [s] cut at every [c]. *)
Fixpoint split_on (c : ascii) (s : string) : list string :=
  match s with
  | EmptyString => [EmptyString]
  | String a s' =>
      if Ascii.eqb a c then EmptyString :: split_on c s'
      else match split_on c s' with
           | [] => [String a EmptyString]
           | seg :: segs => String a seg :: segs
           end
  end.

(** The query component: behind the first [?], and in front of the first
    [#], where the fragment starts; the fragment stays with the client. *)
Definition url_query (u : string) : string :=
  after "?" (before "#" u).

(** The [name=value] pairs of a query, in order. *)
Definition query_pairs (qs : string) : list (string * string) :=
  (λ seg, (before "=" seg, after "=" seg)) <$> split_on "&" qs.

(** The parameters a request for the URL [u] carries upstream. *)
Definition sent_params (u : string) : list (string * string) :=
  query_pairs (url_query u).

(** The request a handler opens with. *)
Definition outbound {A : Type} (m : action A) : option request :=
  match m with
  | Get rq _ => Some rq
  | Return _ | Raise _ => None
  end.

(** The upstream's answer to that request. *)
Definition upstream_reply {A : Type} (net : request → answer) (m : action A) : option answer :=
  net <$> outbound m.

(** ** Sample upstreams and inputs *)

(** Float formatting on the coordinates used in the examples below
    (Berlin: 52.5, 13.375); no other value is formatted there. *)
Definition format_sample (x : float) : string :=
  if (x =? 52.5)%float then "52.5"
  else if (x =? 13.375)%float then "13.375"
  else "nan".

(** [s] between double quotes, for writing JSON text. *)
Definition quoted (s : string) : string :=
  String "034" (s +:+ String "034" EmptyString).

(** An upstream that answers every request with the same response. *)
Definition always (r : response) : request → answer := λ _, Answered r.

(** An upstream that cannot be reached. *)
Definition unreachable : request → answer := λ _, Failed ConnectError.

(** A forecast document, cut down to its three sections. *)
Definition forecast_doc : json :=
  JObj [("current", JObj []); ("hourly", JObj []); ("daily", JObj [])].

Definition forecast_ok : response :=
  Response 200
    ("{" +:+ quoted "current" +:+ ": {}, " +:+ quoted "hourly" +:+ ": {}, "
       +:+ quoted "daily" +:+ ": {}}")
    (inr forecast_doc).



(** A geocoder that honours [limit=5] when the request carries it and
    otherwise answers with six places (within its own default of ten).
    The places are stood for by their ids. *)
Definition geocoder (rq : request) : answer :=
  if bool_decide (("limit", "5") ∈ sent_params (url rq)) then
    Answered (Response 200 "[1, 2, 3, 4, 5]"
                (inr (JArr [JInt 1; JInt 2; JInt 3; JInt 4; JInt 5])))
  else
    Answered (Response 200 "[1, 2, 3, 4, 5, 6]"
                (inr (JArr [JInt 1; JInt 2; JInt 3; JInt 4; JInt 5; JInt 6]))).

(** A reverse-geocoding answer with its [address] field. *)
Definition address_doc : json :=
  JObj [("display_name", JStr "Berlin, Deutschland");
        ("address", JObj [("city", JStr "Berlin"); ("country_code", JStr "de")])].

Definition address_ok : response :=
  Response 200
    ("{" +:+ quoted "display_name" +:+ ": " +:+ quoted "Berlin, Deutschland" +:+ ", "
       +:+ quoted "address" +:+ ": {" +:+ quoted "city" +:+ ": " +:+ quoted "Berlin" +:+ ", "
       +:+ quoted "country_code" +:+ ": " +:+ quoted "de" +:+ "}}")
    (inr address_doc).

(** The geocoder answering 503 with an HTML page. *)
Definition geocoder_503 : response :=
  Response 503 "<html>Service Unavailable</html>" (inl JSONDecodeError).

(** Where a request for the URL [u] goes: scheme, host and path, that
    is all that stands in front of the query and the fragment. *)
Definition url_target (u : string) : string :=
  before "?" (before "#" u).

(** The geocoder refusing a request with a JSON error document. *)
Definition geocoder_error_doc : json :=
  JObj [("error", JObj [("code", JInt 400); ("message", JStr "Floating-point number expected")])].

Definition geocoder_error_text : string :=
  "{" +:+ quoted "error" +:+ ": {" +:+ quoted "code" +:+ ": 400, "
    +:+ quoted "message" +:+ ": " +:+ quoted "Floating-point number expected" +:+ "}}".

Definition geocoder_400 : response :=
  Response 400 geocoder_error_text (inr geocoder_error_doc).

(** The same document under status 200. *)
Definition geocoder_error_200 : response :=
  Response 200 geocoder_error_text (inr geocoder_error_doc).







(** Characters that no step between the handler and the upstream
    rewrites: letters, digits and [-], [.], [_], [~]. *)
Definition unreserved (a : ascii) : bool :=
  let n := nat_of_ascii a in
  ((48 <=? n) && (n <=? 57) || (65 <=? n) && (n <=? 90) || (97 <=? n) && (n <=? 122)
   || (n =? 45) || (n =? 46) || (n =? 95) || (n =? 126))%nat.

Fixpoint all_unreserved (s : string) : bool :=
  match s with
  | EmptyString => true
  | String a s' => unreserved a && all_unreserved s'
  end.

(** ** The shape of the geocoding handlers *)

(** Both geocoding handlers are a GET followed at once by [r.json()]. *)
Definition relays (m : action json) (u : string) : Prop :=
  m = Get (Request u ∅ {["User-Agent" := "WeatherApp/1.0"]}) response_json.

(** * Properties *)

(** ** The request monad *)

Lemma run_bind {A B : Type} (net : request → answer) (m : action A) (f : A → action B) :
  run net (m ≫= f) =
  match run net m with
  | Returned a => run net (f a)
  | Raised e => Raised e
  end.
Proof.
  unfold mbind, action_mbind.
  induction m as [a | e | rq k IH]; simpl; try reflexivity.
  destruct (net rq) as [e | r]; [reflexivity | apply IH].
Qed.

Lemma run_response_json net r :
  run net (response_json r) =
  match json_body r with
  | inl e => Raised e
  | inr doc => Returned doc
  end.
Proof. unfold response_json. destruct (json_body r); reflexivity. Qed.

(** ** The weather relay *)

(** The handler is one GET followed by the status test of the source. *)
Lemma get_weather_shape lat lon tz :
  ∃ rq, get_weather lat lon tz =
    Get rq (λ r, if negb (status_code r =? 200)
                 then Return (JObj [("error", JBool true); ("reason", JStr (text r))])
                 else response_json r).
Proof. eexists. reflexivity. Qed.










Lemma sent_response_json net r : sent net (response_json r) = [].
Proof. unfold response_json. destruct (json_body r); reflexivity. Qed.

(** The weather handler performs its one GET and nothing more. *)
Lemma get_weather_sent net lat lon tz :
  ∃ rq, outbound (get_weather lat lon tz) = Some rq ∧
        sent net (get_weather lat lon tz) = [rq].
Proof.
  destruct (get_weather_shape lat lon tz) as [rq ->].
  exists rq. split; [reflexivity |]. simpl.
  destruct (net rq) as [e | r]; [reflexivity |].
  destruct (negb _); [reflexivity | by rewrite sent_response_json].
Qed.

(** C4. For every [lat], [lon] and [tz] the handler issues one request,
    to the fixed forecast endpoint, whose parameters are [latitude=lat],
    [longitude=lon], [timezone=tz] (["auto"] when [tz] is omitted),
    [forecast_days=7] and the three fixed field lists, and nothing else. *)
Theorem weather_request_parameters net lat lon tz :
  ∃ rq, sent net (get_weather lat lon tz) = [rq] ∧
    url rq = "https://api.open-meteo.com/v1/forecast" ∧
    params rq !! "latitude" = Some (PFloat lat) ∧
    params rq !! "longitude" = Some (PFloat lon) ∧
    params rq !! "timezone" = Some (PStr (match tz with Some z => z | None => "auto" end)) ∧
    params rq !! "forecast_days" = Some (PInt 7) ∧
    params rq !! "current" = Some (PStr
      ("temperature_2m,apparent_temperature,relative_humidity_2m,is_day,precipitation,"
       +:+ "wind_speed_10m,wind_direction_10m,weather_code,surface_pressure,cloud_cover")) ∧
    params rq !! "hourly" = Some (PStr
      "temperature_2m,relative_humidity_2m,precipitation,cloud_cover,wind_speed_10m") ∧
    params rq !! "daily" = Some (PStr
      "temperature_2m_max,temperature_2m_min,uv_index_max,sunrise,sunset,precipitation_sum") ∧
    dom (params rq) =
      ({["latitude"; "longitude"; "timezone"; "forecast_days"; "current"; "hourly"; "daily"]}
         : gset string) ∧
    headers rq = ∅.
Proof.
  destruct (get_weather_sent net lat lon tz) as (rq & Hout & Hsent).
  exists rq. split; [exact Hsent |].
  injection Hout as <-.
  destruct tz as [z |]; repeat split; vm_compute; reflexivity.
Qed.

(** C9, as stated, fails: latitude 91 and longitude 181 lie outside the
    ranges, and the weather relay forwards both as they are. *)
Lemma out_of_range_coordinates_forwarded :
  (90 <? 91)%float = true ∧ (180 <? 181)%float = true ∧
  ∃ rq, sent (always forecast_ok) (get_weather 91 181 None) = [rq] ∧
    params rq !! "latitude" = Some (PFloat 91) ∧
    params rq !! "longitude" = Some (PFloat 181).
Proof.
  split; [reflexivity |]. split; [reflexivity |].
  eexists. split; [reflexivity |]. split; vm_compute; reflexivity.
Qed.

(** C9, amended. The coordinates are floats without any range
    constraint: for every [lat] and [lon], inside the ranges or not, the
    weather relay sends [latitude=lat] and [longitude=lon], and the
    reverse-geocoding relay sends the URL with the two formatted values. *)
Theorem coordinates_forwarded_unchecked format_float lat lon tz :
  (∃ rq, outbound (get_weather lat lon tz) = Some rq ∧
     params rq !! "latitude" = Some (PFloat lat) ∧
     params rq !! "longitude" = Some (PFloat lon)) ∧
  (∃ rq, outbound (reverse_geocode format_float lat lon) = Some rq ∧
     url rq = "https://nominatim.openstreetmap.org/reverse?format=json&lat="
                +:+ format_float lat +:+ "&lon=" +:+ format_float lon).
Proof.
  split.
  - eexists. split; [reflexivity |]. split; vm_compute; reflexivity.
  - eexists. split; reflexivity.
Qed.

(** ** Cutting strings *)

(** [String.append] is kept folded by [simpl]; its two equations are
    applied by hand. *)
Lemma append_nil t : EmptyString +:+ t = t.
Proof. reflexivity. Qed.

Lemma append_cons a s t : String a s +:+ t = String a (s +:+ t).
Proof. reflexivity. Qed.

Ltac unfold_append := rewrite ?append_cons, ?append_nil; simpl.

Lemma append_empty_r s : s +:+ EmptyString = s.
Proof. induction s as [| a s IH]; unfold_append; [reflexivity | by f_equal]. Qed.

Section Cutting.

Variable c : ascii.

Lemma occurs_app s t : occurs c (s +:+ t) = occurs c s || occurs c t.
Proof.
  induction s as [| a s IH]; unfold_append; [reflexivity |].
  rewrite IH. apply orb_assoc.
Qed.

Lemma before_absent s : occurs c s = false → before c s = s.
Proof.
  induction s as [| a s IH]; simpl; [reflexivity |].
  intros [Ha Hs]%orb_false_elim. rewrite Ha, IH; done.
Qed.

Lemma before_app s t :
  occurs c s = false → before c (s +:+ t) = s +:+ before c t.
Proof.
  induction s as [| a s IH]; unfold_append; [reflexivity |].
  intros [Ha Hs]%orb_false_elim. rewrite Ha, IH; done.
Qed.

Lemma after_app s t :
  occurs c s = false → after c (s +:+ t) = after c t.
Proof.
  induction s as [| a s IH]; unfold_append; [reflexivity |].
  intros [Ha Hs]%orb_false_elim. rewrite Ha. auto.
Qed.

Lemma before_cut s t : occurs c s = false → before c (s +:+ String c t) = s.
Proof.
  intros Hs. rewrite before_app by assumption. simpl.
  rewrite Ascii.eqb_refl. apply append_empty_r.
Qed.

Lemma after_cut s t : occurs c s = false → after c (s +:+ String c t) = t.
Proof.
  intros Hs. rewrite after_app by assumption. simpl.
  by rewrite Ascii.eqb_refl.
Qed.

Lemma split_absent s : occurs c s = false → split_on c s = [s].
Proof.
  induction s as [| a s IH]; simpl; [reflexivity |].
  intros [Ha Hs]%orb_false_elim. rewrite Ha, IH; done.
Qed.

Lemma split_cut s t :
  occurs c s = false → split_on c (s +:+ String c t) = s :: split_on c t.
Proof.
  induction s as [| a s IH]; unfold_append.
  - by rewrite Ascii.eqb_refl.
  - intros [Ha Hs]%orb_false_elim. rewrite Ha, IH; done.
Qed.

(** Whatever stands in front, a piece behind the last [c] is the last
    segment. *)
Lemma split_last_segment s t :
  occurs c t = false →
  ∃ seg segs, split_on c (s +:+ String c t) = (seg :: segs ++ [t])%list.
Proof.
  intros Ht. induction s as [| a s (seg & segs & IH)]; unfold_append.
  - rewrite Ascii.eqb_refl, split_absent by assumption.
    by exists EmptyString, [].
  - rewrite IH. destruct (Ascii.eqb a c).
    + by exists EmptyString, (seg :: segs).
    + by exists (String a seg), segs.
Qed.

End Cutting.

(** ** The geocoding relays *)

Lemma search_places_relays q :
  relays (search_places q)
    ("https://nominatim.openstreetmap.org/search?format=json&q=" +:+ q +:+ "&limit=5").
Proof. reflexivity. Qed.

Lemma reverse_geocode_relays format_float lat lon :
  relays (reverse_geocode format_float lat lon)
    ("https://nominatim.openstreetmap.org/reverse?format=json&lat="
       +:+ format_float lat +:+ "&lon=" +:+ format_float lon).
Proof. reflexivity. Qed.

Lemma relays_sent net m u :
  relays m u → sent net m = [Request u ∅ {["User-Agent" := "WeatherApp/1.0"]}].
Proof.
  intros ->. simpl. destruct (net _) as [e | r]; [reflexivity |].
  by rewrite sent_response_json.
Qed.

Lemma relays_run net m u :
  relays m u →
  run net m =
    match net (Request u ∅ {["User-Agent" := "WeatherApp/1.0"]}) with
    | Failed e => Raised e
    | Answered r => match json_body r with
                    | inl e => Raised e
                    | inr doc => Returned doc
                    end
    end.
Proof.
  intros ->. simpl. destruct (net _) as [e | r]; [reflexivity |].
  apply run_response_json.
Qed.

Lemma relays_reply net m u :
  relays m u →
  upstream_reply net m = Some (net (Request u ∅ {["User-Agent" := "WeatherApp/1.0"]})).
Proof. by intros ->. Qed.

Lemma append_assoc s t u : (s +:+ t) +:+ u = s +:+ (t +:+ u).
Proof. induction s as [| a s IH]; unfold_append; [reflexivity | by f_equal]. Qed.

(** ** The query sent by the search relay *)

(** The query of the search URL: the fixed [format=json], then [q=] with
    whatever of [q] and the trailing [&limit=5] stands in front of a [#]. *)
Lemma search_url_query q :
  url_query ("https://nominatim.openstreetmap.org/search?format=json&q=" +:+ q +:+ "&limit=5")
  = "format=json&q=" +:+ before "#" (q +:+ "&limit=5").
Proof. reflexivity. Qed.

Lemma search_sent_params q :
  sent_params ("https://nominatim.openstreetmap.org/search?format=json&q=" +:+ q +:+ "&limit=5")
  = ("format", "json") :: query_pairs ("q=" +:+ before "#" (q +:+ "&limit=5")).
Proof.
  unfold sent_params. rewrite search_url_query. unfold query_pairs.
  change ("format=json&q=" +:+ ?t) with ("format=json" +:+ String "&" ("q=" +:+ t)).
  by rewrite split_cut.
Qed.

(** Without a [#] in [q], [limit=5] closes the query. *)
Lemma search_limit_last q :
  occurs "#" q = false →
  last (sent_params
          ("https://nominatim.openstreetmap.org/search?format=json&q=" +:+ q +:+ "&limit=5"))
  = Some ("limit", "5").
Proof.
  intros Hq. rewrite search_sent_params, before_absent
    by (rewrite occurs_app, Hq; reflexivity).
  unfold query_pairs.
  change ("q=" +:+ q +:+ "&limit=5") with (("q=" +:+ q) +:+ String "&" "limit=5").
  destruct (split_last_segment "&" ("q=" +:+ q) "limit=5") as (seg & segs & ->);
    [reflexivity |].
  rewrite fmap_cons, fmap_app. simpl.
  rewrite !app_comm_cons. apply last_snoc.
Qed.

(** A [name=value] smuggled in behind an [&] arrives as a parameter of
    its own, between [q] and the fixed [limit]. *)
Lemma search_injected q0 k v :
  occurs "&" q0 = false → occurs "#" q0 = false →
  occurs "&" k = false → occurs "#" k = false → occurs "=" k = false →
  occurs "&" v = false → occurs "#" v = false →
  sent_params ("https://nominatim.openstreetmap.org/search?format=json&q="
                 +:+ (q0 +:+ "&" +:+ k +:+ "=" +:+ v) +:+ "&limit=5")
  = [("format", "json"); ("q", q0); (k, v); ("limit", "5")].
Proof.
  intros Hq0a Hq0h Hka Hkh Hke Hva Hvh.
  rewrite search_sent_params, before_absent
    by (rewrite !occurs_app, Hq0h, Hkh, Hvh; reflexivity).
  unfold query_pairs. f_equal.
  rewrite (append_assoc q0).
  change ("q=" +:+ q0 +:+ ("&" +:+ ?t) +:+ "&limit=5")
    with (("q=" +:+ q0) +:+ String "&" (t +:+ "&limit=5")).
  rewrite split_cut by (rewrite occurs_app, Hq0a; reflexivity).
  change (?t +:+ "&limit=5") with (t +:+ String "&" "limit=5").
  rewrite split_cut by (rewrite !occurs_app, Hka, Hva; reflexivity).
  simpl. repeat f_equal.
  - change (k +:+ "=" +:+ v) with (k +:+ String "=" v). by rewrite before_cut.
  - change (k +:+ "=" +:+ v) with (k +:+ String "=" v). by rewrite after_cut.
Qed.

(** C5, as stated, fails: for the query [Berlin#] the [&limit=5] falls
    into the fragment of the URL, the request carries no [limit], and an
    upstream that honours the limit only when asked answers with six
    places, which the relay returns. *)
Lemma search_limit_lost_behind_fragment :
  ∃ rq items,
    sent geocoder (search_places "Berlin#") = [rq] ∧
    sent_params (url rq) = [("format", "json"); ("q", "Berlin")] ∧
    (("limit", "5") ∉ sent_params (url rq)) ∧
    run geocoder (search_places "Berlin#") = Returned (JArr items) ∧
    length items = 6%nat.
Proof.
  eexists. eexists. split; [reflexivity |].
  split; [reflexivity |]. split; [| split; reflexivity].
  intros Hin. apply list_elem_of_In in Hin. vm_compute in Hin.
  destruct Hin as [[=] | [[=] | []]].
Qed.

(** C5, amended. For every [q] the search relay requests the URL that
    ends in [&limit=5]; when [q] holds no [#], [limit=5] is the last
    parameter the upstream receives; and the relay returns the upstream
    array as it is, hence with as many elements as the upstream sent. *)
Theorem search_limit_requested net q :
  ∃ rq, sent net (search_places q) = [rq] ∧
    url rq = "https://nominatim.openstreetmap.org/search?format=json&q=" +:+ q +:+ "&limit=5" ∧
    (occurs "#" q = false → last (sent_params (url rq)) = Some ("limit", "5")) ∧
    (∀ r items, net rq = Answered r → json_body r = inr (JArr items) →
       run net (search_places q) = Returned (JArr items)).
Proof.
  pose proof (search_places_relays q) as Hrel.
  eexists. split; [apply (relays_sent _ _ _ Hrel) |]. split; [reflexivity |].
  split; [apply search_limit_last |].
  intros r items Hr Hitems. rewrite (relays_run _ _ _ Hrel).
  simpl in Hr. by rewrite Hr, Hitems.
Qed.

Lemma search_limit_requested_witness :
  ∃ rq, sent geocoder (search_places "Berlin") = [rq] ∧
    last (sent_params (url rq)) = Some ("limit", "5") ∧
    run geocoder (search_places "Berlin") =
      Returned (JArr [JInt 1; JInt 2; JInt 3; JInt 4; JInt 5]).
Proof.
  destruct (search_limit_requested geocoder "Berlin") as (rq & Hsent & Hurl & Hlast & Hrun).
  exists rq. split; [exact Hsent |]. split; [apply Hlast; reflexivity |].
  refine (Hrun _ [JInt 1; JInt 2; JInt 3; JInt 4; JInt 5] _ _).
  - rewrite (relays_sent _ _ _ (search_places_relays "Berlin")) in Hsent.
    injection Hsent as <-. reflexivity.
  - reflexivity.
Defined.

(** C6. For every input both geocoding relays send exactly one request,
    whose only header is the fixed [User-Agent: WeatherApp/1.0], and
    return the document decoded from the upstream answer as it is. *)
Theorem geocoding_relays_pass_through format_float net lat lon q m :
  m ∈ [reverse_geocode format_float lat lon; search_places q] →
  ∃ rq, sent net m = [rq] ∧
    headers rq = {["User-Agent" := "WeatherApp/1.0"]} ∧
    ∀ r doc, net rq = Answered r → json_body r = inr doc → run net m = Returned doc.
Proof.
  intros Hm.
  assert (∃ u, relays m u) as [u Hrel].
  { apply list_elem_of_In in Hm. destruct Hm as [<- | [<- | []]].
    - eexists. apply reverse_geocode_relays.
    - eexists. apply search_places_relays. }
  eexists. split; [apply (relays_sent _ _ _ Hrel) |]. split; [reflexivity |].
  intros r doc Hr Hdoc. rewrite (relays_run _ _ _ Hrel).
  simpl in Hr. by rewrite Hr, Hdoc.
Qed.

Lemma geocoding_relays_pass_through_witness :
  ∃ rq, sent (always address_ok) (reverse_geocode format_sample 52.5 13.375) = [rq] ∧
    url rq = "https://nominatim.openstreetmap.org/reverse?format=json&lat=52.5&lon=13.375" ∧
    headers rq = {["User-Agent" := "WeatherApp/1.0"]} ∧
    run (always address_ok) (reverse_geocode format_sample 52.5 13.375) = Returned address_doc.
Proof.
  destruct (geocoding_relays_pass_through format_sample (always address_ok)
              52.5 13.375 "Berlin" (reverse_geocode format_sample 52.5 13.375))
    as (rq & Hsent & Hua & Hrun).
  - apply list_elem_of_here.
  - exists rq. split; [exact Hsent |]. split.
    + vm_compute in Hsent. injection Hsent as <-. reflexivity.
    + split; [exact Hua |]. apply (Hrun address_ok address_doc); reflexivity.
Defined.

(** C7. The geocoding handlers intercept nothing: a transport failure of
    the GET and a body that [r.json()] cannot decode, whatever the status,
    both leave the handler as the exception raised; and a value the
    handler returns is never one of its own making, it is the decoded
    upstream document. *)
Theorem geocoding_failures_propagate format_float net lat lon q m :
  m ∈ [reverse_geocode format_float lat lon; search_places q] →
  (∀ e, upstream_reply net m = Some (Failed e) → run net m = Raised e) ∧
  (∀ r e, upstream_reply net m = Some (Answered r) → json_body r = inl e →
     run net m = Raised e) ∧
  (∀ v, run net m = Returned v →
     ∃ r, upstream_reply net m = Some (Answered r) ∧ json_body r = inr v).
Proof.
  intros Hm.
  assert (∃ u, relays m u) as [u Hrel].
  { apply list_elem_of_In in Hm. destruct Hm as [<- | [<- | []]].
    - eexists. apply reverse_geocode_relays.
    - eexists. apply search_places_relays. }
  rewrite (relays_run _ _ _ Hrel), (relays_reply _ _ _ Hrel).
  destruct (net _) as [e0 | r0]; repeat split.
  - by intros e [= ->].
  - intros r e [=].
  - intros v [=].
  - intros e [=].
  - intros r e [= ->] ->. reflexivity.
  - intros v Hv. exists r0. destruct (json_body r0) as [e | doc]; [discriminate |].
    by injection Hv as ->.
Qed.

Lemma geocoding_failures_propagate_witness :
  run unreachable (search_places "Berlin") = Raised ConnectError ∧
  run (always geocoder_503) (search_places "Berlin") = Raised JSONDecodeError ∧
  serve (run (always geocoder_503) (search_places "Berlin")) =
    HttpResponse 500 (inr "Internal Server Error").
Proof.
  assert (search_places "Berlin"
            ∈ [reverse_geocode format_sample 52.5 13.375; search_places "Berlin"]) as Hm
    by (apply list_elem_of_further, list_elem_of_here).
  pose proof (geocoding_failures_propagate format_sample unreachable
                52.5 13.375 "Berlin" _ Hm) as (Hfail & _ & _).
  pose proof (geocoding_failures_propagate format_sample (always geocoder_503)
                52.5 13.375 "Berlin" _ Hm) as (_ & Hbody & _).
  assert (run (always geocoder_503) (search_places "Berlin") = Raised JSONDecodeError) as Hrun
    by (apply (Hbody geocoder_503 JSONDecodeError); reflexivity).
  split; [apply (Hfail ConnectError); reflexivity |].
  split; [exact Hrun |]. rewrite Hrun. reflexivity.
Defined.

(** ** The cross-origin policy *)








(** ** Raw interpolation *)

(** C10. The search relay requests exactly the concatenation of the
    fixed prefix, [q] as given and [&limit=5], and the reverse relay the
    concatenation with the two formatted coordinates, nothing being
    percent-encoded; so a [q] of the form [q0&k=v] reaches the upstream
    as the query [q0] plus a parameter [k=v] of the caller's choosing. *)
Theorem search_url_raw_interpolation format_float net lat lon q :
  sent net (search_places q) =
    [Request ("https://nominatim.openstreetmap.org/search?format=json&q=" +:+ q +:+ "&limit=5")
       ∅ {["User-Agent" := "WeatherApp/1.0"]}] ∧
  sent net (reverse_geocode format_float lat lon) =
    [Request ("https://nominatim.openstreetmap.org/reverse?format=json&lat="
                +:+ format_float lat +:+ "&lon=" +:+ format_float lon)
       ∅ {["User-Agent" := "WeatherApp/1.0"]}] ∧
  ∀ q0 k v,
    q = q0 +:+ "&" +:+ k +:+ "=" +:+ v →
    occurs "&" q0 = false → occurs "#" q0 = false →
    occurs "&" k = false → occurs "#" k = false → occurs "=" k = false →
    occurs "&" v = false → occurs "#" v = false →
    ∃ rq, sent net (search_places q) = [rq] ∧
      sent_params (url rq) = [("format", "json"); ("q", q0); (k, v); ("limit", "5")].
Proof.
  pose proof (relays_sent net _ _ (search_places_relays q)) as Hs.
  pose proof (relays_sent net _ _ (reverse_geocode_relays format_float lat lon)) as Hr.
  split; [exact Hs |]. split; [exact Hr |].
  intros q0 k v -> ? ? ? ? ? ? ?.
  eexists. split; [exact Hs |]. by apply search_injected.
Qed.

Lemma search_url_raw_interpolation_witness :
  ∃ rq, sent geocoder (search_places "Berlin&limit=50") = [rq] ∧
    sent_params (url rq) =
      [("format", "json"); ("q", "Berlin"); ("limit", "50"); ("limit", "5")].
Proof.
  apply (proj2 (proj2 (search_url_raw_interpolation format_sample geocoder
                         52.5 13.375 "Berlin&limit=50")) "Berlin" "limit" "50");
    reflexivity.
Defined.

(** ** Further properties of the handlers *)


(** X2. The geocoding handlers never look at the upstream status or at
    the raw body text: two answers on which [r.json()] has the same
    outcome give the same outcome of the handler. *)
Theorem geocoding_status_ignored format_float net net' lat lon q m r r' :
  m ∈ [reverse_geocode format_float lat lon; search_places q] →
  upstream_reply net m = Some (Answered r) →
  upstream_reply net' m = Some (Answered r') →
  json_body r = json_body r' →
  run net m = run net' m.
Proof.
  intros Hm.
  assert (∃ u, relays m u) as [u Hrel].
  { apply list_elem_of_In in Hm. destruct Hm as [<- | [<- | []]].
    - eexists. apply reverse_geocode_relays.
    - eexists. apply search_places_relays. }
  rewrite !(relays_reply _ _ _ Hrel), !(relays_run _ _ _ Hrel).
  intros [= ->] [= ->] ->. reflexivity.
Qed.

Lemma geocoding_status_ignored_witness :
  status_code geocoder_400 ≠ status_code geocoder_error_200 ∧
  run (always geocoder_400) (reverse_geocode format_sample 52.5 13.375) =
    run (always geocoder_error_200) (reverse_geocode format_sample 52.5 13.375).
Proof.
  split; [discriminate |].
  apply (geocoding_status_ignored format_sample (always geocoder_400)
           (always geocoder_error_200) 52.5 13.375 "Berlin" _ geocoder_400 geocoder_error_200).
  - apply list_elem_of_here.
  - reflexivity.
  - reflexivity.
  - reflexivity.
Defined.

(** ** Further properties of the query sent upstream *)

(** The first segment of a cut is what [before] yields. *)
Lemma split_on_head c s : ∃ segs, split_on c s = before c s :: segs.
Proof.
  induction s as [| a s [segs IH]]; simpl.
  - by exists [].
  - destruct (Ascii.eqb a c); [by eexists |].
    rewrite IH. by eexists.
Qed.

(** Cutting at [c2] and then at [c1] does not see what follows a [c1]. *)
Lemma before_before_cut c1 c2 s t :
  before c1 (before c2 (s +:+ String c1 t)) = before c1 (before c2 s).
Proof.
  induction s as [| a s IH]; unfold_append.
  - destruct (Ascii.eqb c1 c2); simpl; [reflexivity | by rewrite Ascii.eqb_refl].
  - destruct (Ascii.eqb a c2); simpl; [reflexivity |].
    destruct (Ascii.eqb a c1); [reflexivity | by rewrite IH].
Qed.

(** A string of unreserved characters holds none of the others. *)
Lemma all_unreserved_occurs c q :
  unreserved c = false → all_unreserved q = true → occurs c q = false.
Proof.
  intros Hc. induction q as [| a q IH]; simpl; [reflexivity |].
  intros [Ha Hq]%andb_true_iff. rewrite (IH Hq), orb_false_r.
  destruct (Ascii.eqb_spec a c) as [-> | _]; [congruence | reflexivity].
Qed.

(** X3. A [q] made of letters, digits and [-], [.], [_], [~] alone,
    characters that nothing on the way rewrites, reaches the upstream
    whole: the request carries exactly [format=json], [q=q] and
    [limit=5]. *)
Theorem search_plain_query_delivered net q :
  all_unreserved q = true →
  ∃ rq, sent net (search_places q) = [rq] ∧
    sent_params (url rq) = [("format", "json"); ("q", q); ("limit", "5")].
Proof.
  intros Hq.
  pose proof (all_unreserved_occurs "&" q eq_refl Hq) as Hamp.
  pose proof (all_unreserved_occurs "#" q eq_refl Hq) as Hhash.
  eexists. split; [apply (relays_sent _ _ _ (search_places_relays q)) |].
  cbn [url]. rewrite search_sent_params, before_absent
    by (rewrite occurs_app, Hhash; reflexivity).
  unfold query_pairs.
  change ("q=" +:+ q +:+ "&limit=5") with (("q=" +:+ q) +:+ String "&" "limit=5").
  rewrite split_cut by (rewrite occurs_app, Hamp; reflexivity).
  reflexivity.
Qed.

Lemma search_plain_query_delivered_witness :
  ∃ rq, sent geocoder (search_places "Berlin-Mitte") = [rq] ∧
    sent_params (url rq) =
      [("format", "json"); ("q", "Berlin-Mitte"); ("limit", "5")].
Proof.
  apply (search_plain_query_delivered geocoder "Berlin-Mitte"); reflexivity.
Defined.

(** X4. Whatever [q] is, the URL that the search handler hands to the
    client has the fixed scheme, host and path in front of its query,
    and the query as written opens with the pair [format=json] and then
    the pair [q=] with [q] up to its first [&] or [#]; what else [q]
    holds follows these two, as further pairs or behind the [#]. *)
Theorem search_query_cut_at_metacharacter net q :
  ∃ rq rest, sent net (search_places q) = [rq] ∧
    url_target (url rq) = "https://nominatim.openstreetmap.org/search" ∧
    sent_params (url rq) =
      ("format", "json") :: ("q", before "&" (before "#" q)) :: rest.
Proof.
  destruct (split_on_head "&" ("q=" +:+ before "#" (q +:+ "&limit=5"))) as [segs Hsegs].
  eexists. exists ((λ seg, (before "=" seg, after "=" seg)) <$> segs).
  split; [apply (relays_sent _ _ _ (search_places_relays q)) |].
  split; [reflexivity |].
  cbn [url]. rewrite search_sent_params. unfold query_pairs.
  rewrite Hsegs, fmap_cons. do 2 f_equal.
  rewrite (before_app "&" "q=") by reflexivity.
  change (q +:+ "&limit=5") with (q +:+ String "&" "limit=5").
  rewrite before_before_cut. reflexivity.
Qed.

(** X5. A [#] in [q] ends the request: with [q = q0#rest] and [q0] free
    of [&] and [#], the upstream receives [format=json] and [q=q0] only,
    neither [rest] nor the fixed [limit=5]. *)
Theorem search_fragment_drops_limit net q0 rest :
  occurs "&" q0 = false → occurs "#" q0 = false →
  ∃ rq, sent net (search_places (q0 +:+ "#" +:+ rest)) = [rq] ∧
    sent_params (url rq) = [("format", "json"); ("q", q0)].
Proof.
  intros Hamp Hhash.
  eexists. split; [apply (relays_sent _ _ _ (search_places_relays _)) |].
  cbn [url]. rewrite search_sent_params, !append_assoc.
  change ("#" +:+ ?t) with (String "#" t).
  rewrite before_cut by assumption.
  unfold query_pairs.
  rewrite split_absent by (rewrite occurs_app, Hamp; reflexivity).
  reflexivity.
Qed.

Lemma search_fragment_drops_limit_witness :
  ∃ rq, sent geocoder (search_places "Berlin#Mitte") = [rq] ∧
    sent_params (url rq) = [("format", "json"); ("q", "Berlin")].
Proof.
  apply (search_fragment_drops_limit geocoder "Berlin" "Mitte"); reflexivity.
Defined.

(** X6. When the formatted coordinates hold no [&] and no [#], the
    reverse-geocoding request carries exactly [format=json], [lat] and
    [lon], with the formatted values. *)
Theorem reverse_query_parameters format_float net lat lon :
  occurs "&" (format_float lat) = false → occurs "#" (format_float lat) = false →
  occurs "&" (format_float lon) = false → occurs "#" (format_float lon) = false →
  ∃ rq, sent net (reverse_geocode format_float lat lon) = [rq] ∧
    url_target (url rq) = "https://nominatim.openstreetmap.org/reverse" ∧
    sent_params (url rq) =
      [("format", "json"); ("lat", format_float lat); ("lon", format_float lon)].
Proof.
  intros Hlat_a Hlat_h Hlon_a Hlon_h.
  eexists. split; [apply (relays_sent _ _ _ (reverse_geocode_relays format_float lat lon)) |].
  split; [reflexivity |].
  cbn [url]. unfold sent_params.
  change (url_query ("https://nominatim.openstreetmap.org/reverse?format=json&lat="
                       +:+ ?t))
    with ("format=json&lat=" +:+ before "#" t).
  rewrite before_absent
    by (rewrite occurs_app, Hlat_h, occurs_app, Hlon_h; reflexivity).
  unfold query_pairs.
  change ("format=json&lat=" +:+ ?t) with ("format=json" +:+ String "&" ("lat=" +:+ t)).
  rewrite split_cut by reflexivity.
  change ("lat=" +:+ format_float lat +:+ "&lon=" +:+ format_float lon)
    with (("lat=" +:+ format_float lat) +:+ String "&" ("lon=" +:+ format_float lon)).
  rewrite split_cut by (rewrite occurs_app, Hlat_a; reflexivity).
  rewrite split_absent by (rewrite occurs_app, Hlon_a; reflexivity).
  reflexivity.
Qed.

Lemma reverse_query_parameters_witness :
  ∃ rq, sent (always address_ok) (reverse_geocode format_sample 52.5 13.375) = [rq] ∧
    url_target (url rq) = "https://nominatim.openstreetmap.org/reverse" ∧
    sent_params (url rq) = [("format", "json"); ("lat", "52.5"); ("lon", "13.375")].
Proof.
  apply (reverse_query_parameters format_sample (always address_ok) 52.5 13.375);
    reflexivity.
Defined.
